(** * PRGuardian: the diff-position indexer and the finding translator

    A shallow embedding of [src/src/app.py]: [parse_diff_to_positions]
    (lines 4-59), [map_ai_response_to_github_format] (lines 62-110) and
    [post_bulk_review] (lines 113-169), and of [run_pr_audit] of
    [src/src/integration.py], followed by their properties.

    Python values are modelled as follows.
    - [str] is [string]; the primitives below agree with Python's on ASCII
      text (code points below 128).
    - [int] is [Z] (unbounded).
    - a [dict] is a [gmap]; only its contents are modelled, not its
      insertion order, which the two functions never observe.
    - an exception is a [Raise e] result; [Ok v] is a normal return.
    - a call of PyGithub or requests is given by its answer: a value, or
      an exception. *)

From Stdlib Require Import ZArith String Ascii List Bool Lia Sorted.
From stdpp Require Import base option list gmap strings fin_maps.

Local Open Scope string_scope.
Local Open Scope list_scope.
Local Open Scope Z_scope.

(** ** Exceptions and results *)

Inductive exn : Type :=
| ValueError   (* int() on text that is no integer literal *)
| KeyError     (* d[k] with k not in d *)
| IndexError.  (* l[i] with i out of range *)

Inductive result (A : Type) : Type :=
| Ok (a : A)
| Raise (e : exn).
Arguments Ok {A} a.
Arguments Raise {A} e.

#[global] Instance result_ret : MRet result := fun A a => Ok a.
#[global] Instance result_bind : MBind result := fun A B f m =>
  match m with
  | Ok a => f a
  | Raise e => Raise e
  end.
#[global] Instance result_fmap : FMap result := fun A B f m =>
  match m with
  | Ok a => Ok (f a)
  | Raise e => Raise e
  end.

(** [d[k]] on a dict. *)
Definition getitem `{Countable K} {V} (d : gmap K V) (k : K) : result V :=
  match d !! k with
  | Some v => Ok v
  | None => Raise KeyError
  end.

(** [k in d] on a dict. *)
Definition contains `{Countable K} {V} (d : gmap K V) (k : K) : bool :=
  bool_decide (is_Some (d !! k)).

(** ** String primitives *)

Module PyStr.

(** [s.startswith(p)] *)
Definition startswith (p s : string) : bool := String.prefix p s.

(** [s[1:]] *)
Definition tail (s : string) : string :=
  match s with
  | EmptyString => EmptyString
  | String _ t => t
  end.

(** [s.split(sep)] for a non-empty [sep]: the text is cut at every
    occurrence of [sep], found from left to right without overlap.
    [split_go sep skip s] returns the piece that runs up to the next
    separator and the pieces after it; [skip] is the number of characters
    of an already recognised separator still to be dropped. *)
Fixpoint split_go (sep : string) (skip : nat) (s : string) : string * list string :=
  match s with
  | EmptyString => (EmptyString, [])
  | String c s' =>
      match skip with
      | S k => split_go sep k s'
      | O =>
          if String.prefix sep s
          then (EmptyString,
                let '(p, ps) := split_go sep (String.length sep - 1) s' in p :: ps)
          else let '(p, ps) := split_go sep 0 s' in (String c p, ps)
      end
  end.

Definition split (sep s : string) : list string :=
  let '(p, ps) := split_go sep 0 s in p :: ps.

(** Whitespace skipped by [int()] around the literal (ASCII: tab, line
    feed, vertical tab, form feed, carriage return, space). *)
Definition is_space (c : ascii) : bool :=
  let n := nat_of_ascii c in
  (((9 <=? n) && (n <=? 13)) || (n =? 32))%nat.

Definition digit_value (c : ascii) : option Z :=
  let n := Z.of_nat (nat_of_ascii c) in
  if (48 <=? n) && (n <=? 57) then Some (n - 48) else None.

Fixpoint lstrip (s : string) : string :=
  match s with
  | EmptyString => EmptyString
  | String c s' => if is_space c then lstrip s' else s
  end.

Fixpoint all_space (s : string) : bool :=
  match s with
  | EmptyString => true
  | String c s' => is_space c && all_space s'
  end.

(** Where the scan of the digits stands. *)
Inductive scan : Type := AtStart | AfterDigit | AfterUnderscore.

(** The default of [sys.int_max_str_digits] (Python 3.11, the version the
    workflow of [integration.py] installs). *)
Definition int_max_str_digits : nat := 4300.

(** The digits of a base-10 literal: at least one digit, single
    underscores allowed between digits only, then optional trailing
    whitespace. [n] counts the digits read. *)
Fixpoint int_digits (st : scan) (n : nat) (acc : Z) (s : string) : option Z :=
  match s with
  | EmptyString =>
      match st with
      | AfterDigit => if (n <=? int_max_str_digits)%nat then Some acc else None
      | _ => None
      end
  | String c s' =>
      match digit_value c with
      | Some d => int_digits AfterDigit (S n) (10 * acc + d) s'
      | None =>
          match st with
          | AfterDigit =>
              if Ascii.eqb c "_" then int_digits AfterUnderscore n acc s'
              else if all_space s && (n <=? int_max_str_digits)%nat
                   then Some acc else None
          | _ => None
          end
      end
  end.

(** [int(s)]: [None] stands for [ValueError]. *)
Definition int (s : string) : option Z :=
  match lstrip s with
  | String "+" t => int_digits AtStart 0 0 t
  | String "-" t => Z.opp <$> int_digits AtStart 0 0 t
  | t => int_digits AtStart 0 0 t
  end.

(** [s.upper()] *)
Definition upper_char (c : ascii) : ascii :=
  let n := nat_of_ascii c in
  if ((97 <=? n) && (n <=? 122))%nat then ascii_of_nat (n - 32) else c.

Fixpoint upper (s : string) : string :=
  match s with
  | EmptyString => EmptyString
  | String c s' => String (upper_char c) (upper s')
  end.

End PyStr.

(** ** The diff-position indexer *)

(** The index the parser returns: file path, then new-file line number,
    then diff position. *)
Abbreviation PositionIndex := (gmap string (gmap Z Z)).

(** The local variables of [parse_diff_to_positions] (lines 17-20). *)
Record pstate : Type := PState {
  positions_map : PositionIndex;
  current_file : option string;
  diff_position : Z;
  start_line : Z
}.

(** What one iteration of the loop did with its line. *)
Inductive event : Type :=
| FileHeader                          (* lines 24-32 *)
| HunkHeader                          (* lines 35-43 *)
| Ignored                             (* line 47, or the test of line 50 failed *)
| Deleted                             (* counted at line 51, not recorded *)
| Recorded (f : string) (line pos : Z). (* the assignment of line 56 *)

(** Lines 17-20. *)
Definition init : pstate :=
  {| positions_map := ∅; current_file := None; diff_position := 0; start_line := 0 |}.

(** [line and line[0] in chars] *)
Definition first_in (chars : list ascii) (line : string) : bool :=
  match line with
  | EmptyString => false
  | String c _ => bool_decide (c ∈ chars)
  end.

(** The body of the [for] loop (lines 23-57) on one line. *)
Definition step (st : pstate) (line : string) : result (pstate * event) :=
  if PyStr.startswith "diff --git" line then
    let st1 :=
      match PyStr.split " b/" line with
      | [_; f] =>
          {| positions_map := <[f := ∅]> (positions_map st);
             current_file := Some f;
             diff_position := diff_position st;
             start_line := start_line st |}
      | _ => st
      end in
    Ok ({| positions_map := positions_map st1;
           current_file := current_file st1;
           diff_position := 0;
           start_line := 0 |}, FileHeader)
  else if PyStr.startswith "@@" line then
    st1 ← match PyStr.split " " line with
          | _ :: _ :: new_range :: _ =>
              field ← match PyStr.split "," new_range with
                      | x :: _ => Ok x
                      | [] => Raise IndexError
                      end;
              match PyStr.int (PyStr.tail field) with
              | Some n =>
                  Ok {| positions_map := positions_map st;
                        current_file := current_file st;
                        diff_position := diff_position st;
                        start_line := n |}
              | None => Raise ValueError
              end
          | _ => Ok st
          end;
    Ok ({| positions_map := positions_map st1;
           current_file := current_file st1;
           diff_position := 0;
           start_line := start_line st1 |}, HunkHeader)
  else
    match current_file st with
    | None => Ok (st, Ignored)
    | Some f =>
        if first_in ["+"; "-"; " "]%char line then
          let pos := diff_position st + 1 in
          if first_in ["+"; " "]%char line then
            inner ← getitem (positions_map st) f;
            Ok ({| positions_map := <[f := <[start_line st := pos]> inner]> (positions_map st);
                   current_file := current_file st;
                   diff_position := pos;
                   start_line := start_line st + 1 |},
                Recorded f (start_line st) pos)
          else
            Ok ({| positions_map := positions_map st;
                   current_file := current_file st;
                   diff_position := pos;
                   start_line := start_line st |}, Deleted)
        else Ok (st, Ignored)
    end.

(** The [for] loop over the lines, with the events in diff order. *)
Fixpoint run (st : pstate) (lines : list string) : result (pstate * list event) :=
  match lines with
  | [] => Ok (st, [])
  | line :: rest =>
      '(st1, ev) ← step st line;
      '(st2, evs) ← run st1 rest;
      Ok (st2, ev :: evs)
  end.

(** [diff_text.split('\n')] (line 22). *)
Definition diff_lines (diff_text : string) : list string :=
  PyStr.split (String (ascii_of_nat 10) EmptyString) diff_text.

(** The whole function: the loop from the initial locals, then line 59. *)
Definition parse_diff_to_positions (diff_text : string) : result PositionIndex :=
  '(st, _) ← run init (diff_lines diff_text);
  Ok (positions_map st).

(** The events of a call, one per line of the diff. *)
Definition parse_events (diff_text : string) : result (list event) :=
  '(_, evs) ← run init (diff_lines diff_text);
  Ok evs.

(** ** The finding translator *)

(** A finding of the analysis service: a dict with the keys [file_path],
    [line_number], [severity] and [comment], holding a [str], an [int], a
    [str] and a [str]. [None] stands for a key the dict does not have, which
    is what [issue.get] then returns (or replaces by its default). *)
Record Finding : Type := {
  file_path : option string;
  line_number : option Z;
  severity : option string;
  comment : option string
}.

(** A comment of the review request (lines 104-108). *)
Record CommentRecord : Type := {
  path : string;
  position : Z;
  body : string
}.

(** The two warnings the function prints (lines 89 and 94), by their
    arguments. *)
Inductive diagnostic : Type :=
| FileNotInDiff (file_path : option string) (line_number : option Z)
| LineNotInDiff (line_number : option Z) (file_path : string).

(** The body of the [for] loop (lines 81-108) on one finding;
    [github_comments] is the list built so far and [printed] what has been
    written to the standard output. A [file_path] or [line_number] that is
    [None] is a member of no dict of the index, whose keys are [str] and
    [int]. *)
Definition translate_step (diff_positions_map : PositionIndex)
    (github_comments : list CommentRecord) (printed : list diagnostic)
    (issue : Finding) : result (list CommentRecord * list diagnostic) :=
  let sev := PyStr.upper (default "info" (severity issue)) in
  let com := default EmptyString (comment issue) in
  match file_path issue with
  | None =>
      Ok (github_comments, printed ++ [FileNotInDiff None (line_number issue)])
  | Some fp =>
      if negb (contains diff_positions_map fp) then
        Ok (github_comments, printed ++ [FileNotInDiff (Some fp) (line_number issue)])
      else
        inner ← getitem diff_positions_map fp;
        match line_number issue with
        | None => Ok (github_comments, printed ++ [LineNotInDiff None fp])
        | Some ln =>
            if negb (contains inner ln) then
              Ok (github_comments, printed ++ [LineNotInDiff (Some ln) fp])
            else
              inner' ← getitem diff_positions_map fp;
              pos ← getitem inner' ln;
              let github_comment_body := "**[" +:+ sev +:+ "]** " +:+ com in
              Ok (github_comments ++
                    [{| path := fp; position := pos; body := github_comment_body |}],
                  printed)
        end
  end.

(** The [for] loop of lines 80-108. *)
Fixpoint translate_loop (diff_positions_map : PositionIndex)
    (github_comments : list CommentRecord) (printed : list diagnostic)
    (ai_response_json : list Finding) : result (list CommentRecord * list diagnostic) :=
  match ai_response_json with
  | [] => Ok (github_comments, printed)
  | issue :: rest =>
      '(acc, out) ← translate_step diff_positions_map github_comments printed issue;
      translate_loop diff_positions_map acc out rest
  end.

(** The returned list (lines 78 and 110). *)
Definition map_ai_response_to_github_format (ai_response_json : list Finding)
    (diff_positions_map : PositionIndex) : result (list CommentRecord) :=
  fst <$> translate_loop diff_positions_map [] [] ai_response_json.

(** ** The translation in the words of the specification *)

(** The comment of a finding that survives: its file is in the index, its
    line is in that file's mapping, the position is the one found there, and
    the body is the upper-cased severity in a bold bracket tag followed by
    the comment text. *)
Definition comment_of (index : PositionIndex) (finding : Finding) : option CommentRecord :=
  fp ← file_path finding;
  ln ← line_number finding;
  inner ← index !! fp;
  pos ← inner !! ln;
  Some {| path := fp;
          position := pos;
          body := "**[" +:+ PyStr.upper (default "info" (severity finding)) +:+ "]** "
                  +:+ default EmptyString (comment finding) |}.

(** ** The scenarios of the specification *)

Definition nl : string := String (ascii_of_nat 10) EmptyString.
Definition dquote : string := String (ascii_of_nat 34) EmptyString.

(** [lines] joined by line feeds. *)
Fixpoint unlines (lines : list string) : string :=
  match lines with
  | [] => EmptyString
  | [l] => l
  | l :: rest => l +:+ nl +:+ unlines rest
  end.

Definition scenario1_diff : string :=
  unlines
    [ "diff --git a/src/config.py b/src/config.py";
      "@@ -5,10 +5,11 @@";
      " # Configuration file";
      " MAX_RETRIES = 3";
      " TIMEOUT = 30";
      "-DEBUG = True";
      "+DEBUG = False";
      " ";
      " def load_config():";
      "+    print(" +:+ dquote +:+ "Loading config..." +:+ dquote +:+ ")";
      " return {...}" ].

Definition scenario1_index : PositionIndex :=
  {[ "src/config.py" :=
       list_to_map [(5, 1); (6, 2); (7, 3); (8, 5); (9, 6); (10, 7); (11, 8); (12, 9)] ]}.

Definition scenario2_finding : Finding :=
  {| file_path := Some "src/config.py"; line_number := Some 8;
     severity := Some "error"; comment := Some "x" |}.

(** A file with two hunks of one added line each. *)
Definition two_hunks_diff : string :=
  unlines
    [ "diff --git a/f b/f";
      "@@ -1 +1 @@";
      "+a";
      "@@ -9 +9 @@";
      "+b" ].

(** A hunk header whose new-file start is no number. *)
Definition bad_header_diff : string :=
  unlines
    [ "diff --git a/f b/f";
      "@@ -5,10 +x,11 @@";
      "+a" ].

(** The first twelve lines of [sample_diff] in [test_vj_mapping.py], a diff
    as git prints it: the file header is followed by the [index], [---] and
    [+++] lines. *)
Definition sample_diff : string :=
  unlines
    [ "diff --git a/src/config.py b/src/config.py";
      "index 1234567..abcdefg 100644";
      "--- a/src/config.py";
      "+++ b/src/config.py";
      "@@ -5,10 +5,11 @@ import os";
      " # Configuration file";
      " MAX_RETRIES = 3";
      " TIMEOUT = 30";
      "-DEBUG = True";
      "+DEBUG = False";
      " ";
      " def load_config():" ].

(** [index[file][line]], if both keys are there. *)
Definition lookup_position (index : PositionIndex) (file : string) (line : Z) : option Z :=
  inner ← index !! file; inner !! line.

(** The finding has its file in the index and its line in the mapping of
    that file: it is not skipped at line 90 or 95. *)
Definition mappable (index : PositionIndex) (finding : Finding) : bool :=
  match file_path finding, line_number finding with
  | Some fp, Some ln => bool_decide (is_Some (lookup_position index fp ln))
  | _, _ => false
  end.

(** A finding with neither a severity nor a comment. *)
Definition bare_finding : Finding :=
  {| file_path := Some "src/config.py"; line_number := Some 8;
     severity := None; comment := None |}.

(** The mapping the code builds from [sample_diff]. *)
Definition sample_index : PositionIndex :=
  {[ "src/config.py" :=
       list_to_map [(0, 2); (5, 1); (6, 2); (7, 3); (8, 5); (9, 6); (10, 7)] ]}.

(** Some locals in the middle of a hunk. *)
Definition mid_hunk_state : pstate :=
  {| positions_map := {[ "f" := {[ 7 := 3 ]} ]};
     current_file := Some "f";
     diff_position := 3;
     start_line := 8 |}.

(** ** Notions used by the properties of the indexer *)

(** The text a hunk header hands to [int] (line 41): its third field, up to
    the first comma, without its first character. [None] for a line that
    is no hunk header, or one of fewer than three fields. *)
Definition new_start_field (line : string) : option string :=
  if PyStr.startswith "@@" line then
    match PyStr.split " " line with
    | _ :: _ :: new_range :: _ =>
        Some (PyStr.tail (hd EmptyString (PyStr.split "," new_range)))
    | _ => None
    end
  else None.

(** The line is no hunk header that [int] refuses. *)
Definition header_parsable (line : string) : bool :=
  match new_start_field line with
  | Some text => bool_decide (is_Some (PyStr.int text))
  | None => true
  end.

Definition headers_parsable (diff_text : string) : bool :=
  forallb header_parsable (diff_lines diff_text).

(** A hunk header of fewer than three fields. *)
Definition short_hunk_header (line : string) : bool :=
  PyStr.startswith "@@" line && (length (PyStr.split " " line) <? 3)%nat.

(** The state after a hunk header that leaves the line number alone. *)
Definition reset_position (st : pstate) : pstate :=
  {| positions_map := positions_map st;
     current_file := current_file st;
     diff_position := 0;
     start_line := start_line st |}.

(** The invariant of the loop: the current file has its mapping, and the
    position counter is not negative. *)
Definition loop_invariant (st : pstate) : Prop :=
  (∀ f, current_file st = Some f → is_Some (positions_map st !! f))
  ∧ 0 ≤ diff_position st.





(** ** Notions used by the further properties of the indexer *)

(** [line.startswith('diff --git')] (line 24). *)
Definition is_file_header (line : string) : bool :=
  PyStr.startswith "diff --git" line.

(** The file a file header registers (lines 26-29): the text after [ b/],
    when the line holds [ b/] exactly once. *)
Definition header_file (line : string) : option string :=
  if is_file_header line then
    match PyStr.split " b/" line with
    | [_; f] => Some f
    | _ => None
    end
  else None.

(** The test of line 50: the line is counted. *)
Definition hunk_line (line : string) : bool :=
  first_in ["+"; "-"; " "]%char line.

(** The test of line 54: the line is recorded. *)
Definition recorded_line (line : string) : bool :=
  first_in ["+"; " "]%char line.

(** The number of recorded lines among [body]. *)
Fixpoint new_lines (body : list string) : Z :=
  match body with
  | [] => 0
  | line :: rest => (if recorded_line line then 1 else 0) + new_lines rest
  end.

(** The diff of Scenario 1 as it comes in a mail: two lines before the
    file header. *)
Definition mailed_diff : string :=
  "From: a developer" +:+ nl +:+ "Subject: a change" +:+ nl +:+ scenario1_diff.

(** Two states of the loop that differ at most in the mappings of files
    other than [f] and the current file. *)
Definition agree_on (f : string) (st1 st2 : pstate) : Prop :=
  current_file st1 = current_file st2
  ∧ diff_position st1 = diff_position st2
  ∧ start_line st1 = start_line st2
  ∧ positions_map st1 !! f = positions_map st2 !! f
  ∧ ∀ g, current_file st1 = Some g → positions_map st1 !! g = positions_map st2 !! g.

(** [two_hunks_diff] after the diff of Scenario 1. *)
Definition two_files_diff : string :=
  scenario1_diff +:+ nl +:+ two_hunks_diff.

(** The index of [two_files_diff]. *)
Definition two_files_index : PositionIndex :=
  {[ "src/config.py" :=
       list_to_map [(5, 1); (6, 2); (7, 3); (8, 5); (9, 6); (10, 7); (11, 8); (12, 9)];
     "f" := list_to_map [(1, 1); (9, 1)] ]}.

(** The events of the diff of Scenario 1. *)
Definition scenario1_events : list event :=
  [ FileHeader; HunkHeader;
    Recorded "src/config.py" 5 1; Recorded "src/config.py" 6 2;
    Recorded "src/config.py" 7 3; Deleted; Recorded "src/config.py" 8 5;
    Recorded "src/config.py" 9 6; Recorded "src/config.py" 10 7;
    Recorded "src/config.py" 11 8; Recorded "src/config.py" 12 9 ].

(** ** Notions used by the further properties of the translator *)

(** The warning a finding is skipped with: the one of line 89 when its file
    is no key of the index, the one of line 94 when the file is a key and
    the line is no key of its mapping; none when the finding is
    translated. *)
Definition warning_of (index : PositionIndex) (finding : Finding) : option diagnostic :=
  match file_path finding with
  | None => Some (FileNotInDiff None (line_number finding))
  | Some fp =>
      match index !! fp with
      | None => Some (FileNotInDiff (Some fp) (line_number finding))
      | Some inner =>
          match line_number finding with
          | None => Some (LineNotInDiff None fp)
          | Some ln =>
              match inner !! ln with
              | None => Some (LineNotInDiff (Some ln) fp)
              | Some _ => None
              end
          end
      end
  end.

(** A finding for a file that is not in the diff of Scenario 1. *)
Definition stray_finding : Finding :=
  {| file_path := Some "missing.py"; line_number := Some 3;
     severity := Some "warning"; comment := Some "y" |}.

(** ** The review workflow *)









(** * The primitives on examples

    The values are those Python 3.11 returns. *)

Example split_examples :
  PyStr.split " b/" "diff --git a/src/config.py b/src/config.py"
  = ["diff --git a/src/config.py"; "src/config.py"]
  ∧ PyStr.split " b/" "x b/y b/z" = ["x"; "y"; "z"]
  ∧ PyStr.split " b/" " b b/" = [" b"; EmptyString]
  ∧ PyStr.split "aa" "aaa" = [EmptyString; "a"]
  ∧ PyStr.split " " "@@ -5,10 +5,11 @@" = ["@@"; "-5,10"; "+5,11"; "@@"]
  ∧ PyStr.split " " "@@  x" = ["@@"; EmptyString; "x"]
  ∧ PyStr.split "," "+5,11" = ["+5"; "11"]
  ∧ diff_lines EmptyString = [EmptyString]
  ∧ diff_lines ("a" +:+ nl) = ["a"; EmptyString].
Proof. repeat split; by vm_compute. Qed.

Example int_examples :
  PyStr.int "5" = Some 5
  ∧ PyStr.int "+5" = Some 5
  ∧ PyStr.int "-5" = Some (-5)
  ∧ PyStr.int "007" = Some 7
  ∧ PyStr.int " 5 " = Some 5
  ∧ PyStr.int ("5" +:+ String (ascii_of_nat 13) EmptyString) = Some 5
  ∧ PyStr.int "1_0" = Some 10
  ∧ PyStr.int "1__0" = None
  ∧ PyStr.int "_1" = None
  ∧ PyStr.int "1_" = None
  ∧ PyStr.int "+ 5" = None
  ∧ PyStr.int "+" = None
  ∧ PyStr.int "x" = None
  ∧ PyStr.int EmptyString = None
  ∧ PyStr.int (String (ascii_of_nat 28) "5") = None.
Proof. repeat split; by vm_compute. Qed.

(** [int] accepts 4300 digits and refuses 4301. *)
Example int_digit_limit :
  is_Some (PyStr.int (string_of_list_ascii (replicate 4300 "1"%char)))
  ∧ PyStr.int (string_of_list_ascii (replicate 4301 "1"%char)) = None
  ∧ PyStr.int (string_of_list_ascii (replicate 4301 "0"%char)) = None.
Proof.
  split; [eexists; vm_compute; reflexivity|].
  split; vm_compute; reflexivity.
Qed.

Example upper_examples :
  PyStr.upper "error" = "ERROR"
  ∧ PyStr.upper "info" = "INFO"
  ∧ PyStr.upper "Warning-2" = "WARNING-2".
Proof. repeat split; by vm_compute. Qed.

(** * Properties of the finding translator *)

Section Translator.

Context (index : PositionIndex).

Lemma contains_true `{Countable K} {V} (d : gmap K V) k v :
  d !! k = Some v → contains d k = true.
Proof. intros E. unfold contains. rewrite E. by apply bool_decide_eq_true_2. Qed.

Lemma contains_false `{Countable K} {V} (d : gmap K V) k :
  d !! k = None → contains d k = false.
Proof.
  intros E. unfold contains. rewrite E.
  apply bool_decide_eq_false_2. by intros [v Hv].
Qed.

Lemma getitem_Some `{Countable K} {V} (d : gmap K V) k v :
  d !! k = Some v → getitem d k = Ok v.
Proof. intros E. unfold getitem. by rewrite E. Qed.

(** A finding that is skipped leaves the list as it is. *)
Local Ltac skipped := simpl; rewrite ?app_nil_r; by eexists.

(** One iteration appends the comment of the finding, if it has one. *)
Lemma translate_step_comment acc out issue :
  ∃ out', translate_step index acc out issue
          = Ok (acc ++ option_list (comment_of index issue), out').
Proof.
  unfold translate_step, comment_of.
  destruct (file_path issue) as [fp|]; simpl; [|skipped].
  destruct (index !! fp) as [inner|] eqn:Efp.
  2:{ rewrite (contains_false _ _ Efp).
      destruct (line_number issue); skipped. }
  rewrite (contains_true _ _ _ Efp), !(getitem_Some _ _ _ Efp). simpl.
  destruct (line_number issue) as [ln|]; simpl; [|skipped].
  destruct (inner !! ln) as [pos|] eqn:Eln.
  2:{ rewrite (contains_false _ _ Eln). skipped. }
  rewrite (contains_true _ _ _ Eln), (getitem_Some _ _ _ Eln). simpl. by eexists.
Qed.

Lemma translate_loop_comments ai acc out :
  ∃ out', translate_loop index acc out ai
          = Ok (acc ++ omap (comment_of index) ai, out').
Proof.
  revert acc out. induction ai as [|issue rest IH]; intros acc out; simpl.
  - rewrite app_nil_r. by eexists.
  - destruct (translate_step_comment acc out issue) as [out1 ->]. simpl.
    destruct (IH (acc ++ option_list (comment_of index issue)) out1) as [out2 ->].
    eexists. f_equal. f_equal. rewrite <- app_assoc. f_equal.
    by destruct (comment_of index issue).
Qed.

Lemma translate_refines ai :
  map_ai_response_to_github_format ai index = Ok (omap (comment_of index) ai).
Proof.
  unfold map_ai_response_to_github_format.
  by destruct (translate_loop_comments ai [] []) as [out ->].
Qed.

End Translator.

(** * Properties of the diff-position indexer *)

Section Indexer.

Implicit Types (st : pstate) (line : string) (ev : event).

Lemma split_cons sep s : ∃ p ps, PyStr.split sep s = p :: ps.
Proof. unfold PyStr.split. destruct (PyStr.split_go sep 0 s). by eexists _, _. Qed.

(** A hunk header is no file header: the test of line 24 fails on it. *)
Lemma hunk_header_not_file_header line :
  PyStr.startswith "@@" line = true → PyStr.startswith "diff --git" line = false.
Proof.
  unfold PyStr.startswith. destruct line as [|c rest]; [done|].
  cbn [String.prefix]. destruct (ascii_dec "@" c) as [<-|]; [|done].
  intros _. by vm_compute.
Qed.

(** What an iteration that returns has done, by its event. *)
Lemma step_inv st line st' ev :
  step st line = Ok (st', ev) →
  match ev with
  | FileHeader =>
      PyStr.startswith "diff --git" line = true
      ∧ diff_position st' = 0 ∧ start_line st' = 0
      ∧ ((∃ f, current_file st' = Some f
               ∧ positions_map st' = <[f := ∅]> (positions_map st))
         ∨ (current_file st' = current_file st
            ∧ positions_map st' = positions_map st))
  | HunkHeader =>
      PyStr.startswith "@@" line = true
      ∧ positions_map st' = positions_map st
      ∧ current_file st' = current_file st
      ∧ diff_position st' = 0
  | Ignored => st' = st
  | Deleted =>
      first_in ["+"; "-"; " "]%char line = true
      ∧ first_in ["+"; " "]%char line = false
      ∧ st' = {| positions_map := positions_map st;
                 current_file := current_file st;
                 diff_position := diff_position st + 1;
                 start_line := start_line st |}
  | Recorded f l p =>
      first_in ["+"; " "]%char line = true
      ∧ current_file st = Some f
      ∧ l = start_line st
      ∧ p = diff_position st + 1
      ∧ ∃ inner, positions_map st !! f = Some inner
                 ∧ st' = {| positions_map := <[f := <[l := p]> inner]> (positions_map st);
                            current_file := Some f;
                            diff_position := p;
                            start_line := l + 1 |}
  end.
Proof.
  unfold step.
  destruct (PyStr.startswith "diff --git" line) eqn:Hfile.
  { intros [= <- <-]. repeat split; [done..|].
    destruct (PyStr.split " b/" line) as [|? [|f [|? ?]]]; simpl; eauto. }
  destruct (PyStr.startswith "@@" line) eqn:Hhunk.
  { destruct (PyStr.split " " line) as [|? [|? [|new_range ?]]]; simpl;
      try (by intros [= <- <-]).
    destruct (PyStr.split "," new_range) as [|field ?]; simpl; [done|].
    destruct (PyStr.int (PyStr.tail field)); simpl; [|done].
    by intros [= <- <-]. }
  destruct (current_file st) as [f|] eqn:Hcur; [|by intros [= <- <-]].
  destruct (first_in ["+"; "-"; " "]%char line) eqn:Hcount; [|by intros [= <- <-]].
  destruct (first_in ["+"; " "]%char line) eqn:Hrec; [|by intros [= <- <-]].
  unfold getitem. destruct (positions_map st !! f) as [inner|] eqn:Hin; simpl; [|done].
  intros [= <- <-]. repeat split; eauto.
Qed.

Lemma init_invariant : loop_invariant init.
Proof. split; [done|]. simpl. lia. Qed.

Lemma step_invariant st line st' ev :
  loop_invariant st → step st line = Ok (st', ev) → loop_invariant st'.
Proof.
  intros [Hfile Hpos] Hstep. apply step_inv in Hstep.
  destruct ev as [| | | |f l p].
  - destruct Hstep as (_ & Hd & _ & [(f & Hf & Hm)|[Hf Hm]]); split;
      rewrite ?Hd, ?Hf, ?Hm; try lia.
    + intros ? [= <-]. rewrite lookup_insert_eq. by eexists.
    + done.
  - destruct Hstep as (_ & Hm & Hf & Hd). split; rewrite ?Hm, ?Hf, ?Hd; [done|lia].
  - by subst.
  - destruct Hstep as (_ & _ & ->). split; simpl; [done|lia].
  - destruct Hstep as (_ & _ & _ & -> & inner & _ & ->). split; simpl; [|lia].
    intros ? [= <-]. rewrite lookup_insert_eq. by eexists.
Qed.


(** An iteration returns unless its line is a hunk header that [int]
    refuses, and then it raises [ValueError]. *)
Lemma step_returns st line :
  loop_invariant st →
  (header_parsable line = true ∧ ∃ st' ev, step st line = Ok (st', ev))
  ∨ (header_parsable line = false ∧ step st line = Raise ValueError).
Proof.
  intros [Hfile _]. unfold step, header_parsable, new_start_field.
  destruct (PyStr.startswith "@@" line) eqn:Hhunk.
  - rewrite (hunk_header_not_file_header _ Hhunk).
    destruct (PyStr.split " " line) as [|? [|? [|new_range ?]]]; simpl;
      try (left; split; [done|by eexists _, _]).
    destruct (split_cons "," new_range) as (field & ? & ->). simpl.
    destruct (PyStr.int (PyStr.tail field)) as [n|]; simpl.
    + left. split; [done|by eexists _, _].
    + by right.
  - left. split; [done|].
    destruct (PyStr.startswith "diff --git" line); [by eexists _, _|].
    destruct (current_file st) as [f|] eqn:Hcur; [|by eexists _, _].
    destruct (first_in ["+"; "-"; " "]%char line); [|by eexists _, _].
    destruct (first_in ["+"; " "]%char line); [|by eexists _, _].
    destruct (Hfile f eq_refl) as [inner Hin].
    rewrite (getitem_Some _ _ _ Hin). simpl. by eexists _, _.
Qed.

Lemma run_returns lines st :
  loop_invariant st →
  (forallb header_parsable lines = true ∧ ∃ st' evs, run st lines = Ok (st', evs))
  ∨ (forallb header_parsable lines = false ∧ run st lines = Raise ValueError).
Proof.
  revert st. induction lines as [|line rest IH]; intros st Hinv; simpl.
  - left. split; [done|by eexists _, _].
  - destruct (step_returns st line Hinv) as [[-> (st1 & ev & Hstep)]|[-> Hstep]];
      rewrite Hstep; simpl; [|by right].
    destruct (IH st1) as [[-> (st2 & evs & Hrun)]|[-> Hrun]];
      [by eapply step_invariant|..]; rewrite Hrun; simpl.
    + left. split; [done|by eexists _, _].
    + by right.
Qed.

(** ** Positions between two headers *)


Lemma run_cons_inv st line rest st' evs :
  run st (line :: rest) = Ok (st', evs) →
  ∃ st1 ev evs', step st line = Ok (st1, ev)
                 ∧ run st1 rest = Ok (st', evs') ∧ evs = ev :: evs'.
Proof.
  simpl. destruct (step st line) as [[st1 ev]|]; simpl; [|done].
  destruct (run st1 rest) as [[st2 evs']|] eqn:Hrest; simpl; [|done].
  intros [= <- <-]. by exists st1, ev, evs'.
Qed.



(** ** Where the entries of the index come from *)

Lemma step_entries st line st' ev F inner k p :
  step st line = Ok (st', ev) →
  positions_map st' !! F = Some inner → inner !! k = Some p →
  (∃ inner0, positions_map st !! F = Some inner0 ∧ inner0 !! k = Some p)
  ∨ (ev = Recorded F k p ∧ first_in ["+"; " "]%char line = true).
Proof.
  intros Hstep HF Hk. apply step_inv in Hstep.
  destruct ev as [| | | |f l p0].
  - destruct Hstep as (_ & _ & _ & [(f & _ & Hm)|[_ Hm]]); rewrite Hm in HF; [|by eauto].
    destruct (decide (f = F)) as [->|Hne].
    + rewrite lookup_insert_eq in HF. injection HF as <-. by rewrite lookup_empty in Hk.
    + rewrite lookup_insert_ne in HF by done. by eauto.
  - destruct Hstep as (_ & Hm & _). rewrite Hm in HF. by eauto.
  - subst. by eauto.
  - destruct Hstep as (_ & _ & ->). by eauto.
  - destruct Hstep as (Hfirst & _ & -> & -> & inner0 & Hin & ->). simpl in HF.
    destruct (decide (f = F)) as [->|Hne].
    + rewrite lookup_insert_eq in HF. injection HF as <-.
      destruct (decide (start_line st = k)) as [<-|Hnk].
      * rewrite lookup_insert_eq in Hk. injection Hk as <-. by right.
      * rewrite lookup_insert_ne in Hk by done. by eauto.
    + rewrite lookup_insert_ne in HF by done. by eauto.
Qed.

Lemma run_entries lines : ∀ st st' evs F inner k p,
  run st lines = Ok (st', evs) →
  positions_map st' !! F = Some inner → inner !! k = Some p →
  (∃ inner0, positions_map st !! F = Some inner0 ∧ inner0 !! k = Some p)
  ∨ (∃ i line, lines !! i = Some line
               ∧ evs !! i = Some (Recorded F k p)
               ∧ first_in ["+"; " "]%char line = true).
Proof.
  induction lines as [|line rest IH]; intros st st' evs F inner k p Hrun HF Hk.
  - injection Hrun as <- <-. by eauto.
  - apply run_cons_inv in Hrun as (st1 & ev & evs' & Hstep & Hrest & ->).
    destruct (IH _ _ _ _ _ _ _ Hrest HF Hk) as [(inner1 & HF1 & Hk1)|(i & ln & ? & ? & ?)].
    + destruct (step_entries _ _ _ _ _ _ _ _ Hstep HF1 Hk1) as [?|[-> ?]]; [by left|].
      right. by exists 0%nat, line.
    + right. by exists (S i), ln.
Qed.

(** Every entry of the index was written at line 56 by a line of the diff
    that begins with [+] or a space, under the line number and the
    position of that moment; a line that begins with [-] writes none. *)
Lemma entries_from_recorded_lines diff_text index evs F inner k p :
  parse_diff_to_positions diff_text = Ok index →
  parse_events diff_text = Ok evs →
  index !! F = Some inner → inner !! k = Some p →
  ∃ i line, diff_lines diff_text !! i = Some line
            ∧ evs !! i = Some (Recorded F k p)
            ∧ first_in ["+"; " "]%char line = true.
Proof.
  unfold parse_diff_to_positions, parse_events.
  destruct (run init (diff_lines diff_text)) as [[st evs0]|] eqn:Hrun; simpl; [|done].
  intros [= <-] [= <-] HF Hk.
  destruct (run_entries _ _ _ _ _ _ _ _ Hrun HF Hk) as [(inner0 & H0 & _)|?]; [|done].
  simpl in H0. by rewrite lookup_empty in H0.
Qed.

End Indexer.

(** * The indexer: failure, positions, keys, determinism *)

(** C1, as the code has it. The indexer has no handler for the exception of
    [int]: on the diff [bad_header_diff], whose hunk header reads [+x,11]
    where the new-file start should be, the call raises [ValueError]. *)
Lemma bad_header_raises :
  parse_diff_to_positions bad_header_diff = Raise ValueError.
Proof. by vm_compute. Qed.

(** C1, amended. [parse_diff_to_positions] returns normally on exactly the
    diffs in which every hunk header of three or more space-separated fields
    holds an integer literal between the first character and the first
    comma of its third field, and raises [ValueError] on every other diff.
    A hunk header of fewer than three fields leaves [start_line] as it was
    and, like every hunk header, sets [diff_position] back to 0. *)
Theorem parse_returns_unless_header_unparsable (diff_text : string)
    (st : pstate) (line : string) :
  ((headers_parsable diff_text = true
    ∧ ∃ index, parse_diff_to_positions diff_text = Ok index)
   ∨ (headers_parsable diff_text = false
      ∧ parse_diff_to_positions diff_text = Raise ValueError))
  ∧ (short_hunk_header line = true →
     step st line = Ok (reset_position st, HunkHeader)).
Proof.
  split.
  - unfold headers_parsable, parse_diff_to_positions.
    destruct (run_returns (diff_lines diff_text) init init_invariant)
      as [[-> (st' & evs & ->)]|[-> ->]]; simpl.
    + left. split; [done|by eexists].
    + by right.
  - unfold short_hunk_header. intros [Hhunk Hlen]%andb_prop.
    unfold step. rewrite (hunk_header_not_file_header _ Hhunk), Hhunk.
    by destruct (PyStr.split " " line) as [|? [|? [|? ?]]].
Qed.

(** The theorem on the diff of Scenario 1 and on the two-field header
    [@@ garbled] met in the middle of a hunk. *)
Lemma parse_returns_unless_header_unparsable_witness :
  short_hunk_header "@@ garbled" = true
  ∧ ((headers_parsable scenario1_diff = true
      ∧ ∃ index, parse_diff_to_positions scenario1_diff = Ok index)
     ∨ (headers_parsable scenario1_diff = false
        ∧ parse_diff_to_positions scenario1_diff = Raise ValueError))
  ∧ step mid_hunk_state "@@ garbled" = Ok (reset_position mid_hunk_state, HunkHeader).
Proof.
  split; [reflexivity|].
  split.
  - apply (parse_returns_unless_header_unparsable scenario1_diff mid_hunk_state "@@ garbled").
  - apply (parse_returns_unless_header_unparsable scenario1_diff mid_hunk_state "@@ garbled").
    reflexivity.
Defined.




(** C3, on a diff as git prints it. In [sample_diff] the line
    [+++ b/src/config.py] comes after the file header and before the first
    hunk header. It begins with [+], so line 56 records it: the mapping of
    [src/config.py] holds the key 0, with position 2, which is the line
    number of no added or context line of a hunk. *)
Theorem header_line_recorded :
  parse_diff_to_positions sample_diff = Ok sample_index
  ∧ lookup_position sample_index "src/config.py" 0 = Some 2
  ∧ diff_lines sample_diff !! 3%nat = Some "+++ b/src/config.py"
  ∧ (evs ← parse_events sample_diff; Ok (evs !! 3%nat))
    = Ok (Some (Recorded "src/config.py" 0 2)).
Proof. repeat split; by vm_compute. Qed.

(** C4. The index of the diff of Scenario 1 maps, for [src/config.py], the
    lines 5, 6, 7, 8, 9, 10, 11 and 12 to the positions 1, 2, 3, 5, 6, 7, 8
    and 9. *)
Theorem scenario1_index_pairs :
  ∃ index,
    parse_diff_to_positions scenario1_diff = Ok index
    ∧ lookup_position index "src/config.py" 5 = Some 1
    ∧ lookup_position index "src/config.py" 6 = Some 2
    ∧ lookup_position index "src/config.py" 7 = Some 3
    ∧ lookup_position index "src/config.py" 8 = Some 5
    ∧ lookup_position index "src/config.py" 9 = Some 6
    ∧ lookup_position index "src/config.py" 10 = Some 7
    ∧ lookup_position index "src/config.py" 11 = Some 8
    ∧ lookup_position index "src/config.py" 12 = Some 9.
Proof. exists scenario1_index. repeat split; by vm_compute. Qed.


(** * The translator: scenarios, skipping, order, defaults *)

Section TranslatorClaims.

Context (index : PositionIndex).

Lemma comment_of_mappable finding :
  length (option_list (comment_of index finding))
  = if mappable index finding then 1%nat else 0%nat.
Proof.
  unfold comment_of, mappable, lookup_position.
  destruct (file_path finding) as [fp|], (line_number finding) as [ln|]; simpl; try done.
  destruct (index !! fp) as [inner|]; simpl; [|done].
  by destruct (inner !! ln).
Qed.

Lemma omap_comment_of_length ai :
  length (omap (comment_of index) ai) = length (List.filter (mappable index) ai)
  ∧ (length (omap (comment_of index) ai) ≤ length ai)%nat.
Proof.
  induction ai as [|finding rest [IHeq IHle]]; csimpl; [done|].
  pose proof (comment_of_mappable finding) as Hone.
  destruct (comment_of index finding), (mappable index finding); csimpl in *;
    try done; split; lia.
Qed.

Lemma comment_of_present finding fp ln pos :
  file_path finding = Some fp → line_number finding = Some ln →
  lookup_position index fp ln = Some pos →
  comment_of index finding
  = Some {| path := fp; position := pos;
            body := "**[" +:+ PyStr.upper (default "info" (severity finding))
                    +:+ "]** " +:+ default EmptyString (comment finding) |}.
Proof.
  unfold comment_of, lookup_position. intros -> ->. simpl.
  destruct (index !! fp) as [inner|]; simpl; [|done]. by intros ->.
Qed.

End TranslatorClaims.

Lemma append_empty_r (s : string) : s +:+ EmptyString = s.
Proof.
  induction s as [|c s IH]; [done|].
  change (String c (s +:+ EmptyString) = String c s). by rewrite IH.
Qed.

(** C5. Against the index of Scenario 1, the finding of Scenario 2 (file
    [src/config.py], line 8, severity [error], comment [x]) is translated
    to exactly one comment: path [src/config.py], position 5, body
    [**[ERROR]** x]. *)
Theorem scenario2_comment_record :
  ∃ index,
    parse_diff_to_positions scenario1_diff = Ok index
    ∧ lookup_position index "src/config.py" 8 = Some 5
    ∧ map_ai_response_to_github_format [scenario2_finding] index
      = Ok [ {| path := "src/config.py"; position := 5; body := "**[ERROR]** x" |} ].
Proof. exists scenario1_index. repeat split; by vm_compute. Qed.

(** C6. For every list of findings and every index, the translation returns
    a list and raises nothing; it holds as many comments as there are
    findings whose file is in the index and whose line is in the mapping of
    that file (the others are skipped), hence no more than there are
    findings. *)
Theorem translate_never_raises (ai_response_json : list Finding) (index : PositionIndex) :
  ∃ github_comments,
    map_ai_response_to_github_format ai_response_json index = Ok github_comments
    ∧ length github_comments = length (List.filter (mappable index) ai_response_json)
    ∧ (length github_comments ≤ length ai_response_json)%nat.
Proof.
  exists (omap (comment_of index) ai_response_json).
  split; [apply translate_refines|apply omap_comment_of_length].
Qed.

(** C7. The output is the list of the comments of the surviving findings,
    one for each, in the order of the input: it is [comment_of] mapped over
    the findings, the skipped ones left out. Translating two lists one after
    the other gives the two outputs one after the other, so nothing is
    merged or dropped as a duplicate; a list followed by itself gives its
    output twice. *)
Theorem translate_preserves_order (index : PositionIndex) (ai1 ai2 : list Finding) :
  map_ai_response_to_github_format ai1 index = Ok (omap (comment_of index) ai1)
  ∧ (∃ out1 out2,
       map_ai_response_to_github_format ai1 index = Ok out1
       ∧ map_ai_response_to_github_format ai2 index = Ok out2
       ∧ map_ai_response_to_github_format (ai1 ++ ai2) index = Ok (out1 ++ out2))
  ∧ (∃ out1,
       map_ai_response_to_github_format ai1 index = Ok out1
       ∧ map_ai_response_to_github_format (ai1 ++ ai1) index = Ok (out1 ++ out1)).
Proof.
  rewrite !translate_refines, !omap_app. repeat split; by eauto.
Qed.

(** C9. The empty diff text has the empty index, and against the empty index
    every list of findings, empty or not, is translated to the empty
    list. *)
Theorem empty_diff_empty_output (ai_response_json : list Finding) :
  parse_diff_to_positions EmptyString = Ok ∅
  ∧ map_ai_response_to_github_format ai_response_json ∅ = Ok [].
Proof.
  split; [by vm_compute|]. rewrite translate_refines. f_equal.
  assert (Hskip : ∀ finding, comment_of ∅ finding = None).
  { intros finding. unfold comment_of.
    by destruct (file_path finding), (line_number finding). }
  induction ai_response_json as [|finding rest IH]; csimpl; [done|].
  by rewrite Hskip.
Qed.

(** C10. A finding whose file and line are in the index is not skipped,
    whatever of its optional fields are missing: among the comments of the
    findings before it and after it, it has its own comment, with its file
    as path and the position of the index. Without a severity the tag of the
    body is [**[INFO]**]; without a comment the body is the tag followed by
    a single space. *)
Theorem optional_fields_default (index : PositionIndex) (pre post : list Finding)
    (finding : Finding) (fp : string) (ln pos : Z) :
  file_path finding = Some fp →
  line_number finding = Some ln →
  lookup_position index fp ln = Some pos →
  ∃ out_pre out_post c,
    map_ai_response_to_github_format pre index = Ok out_pre
    ∧ map_ai_response_to_github_format post index = Ok out_post
    ∧ map_ai_response_to_github_format (pre ++ finding :: post) index
      = Ok (out_pre ++ c :: out_post)
    ∧ path c = fp
    ∧ position c = pos
    ∧ body c = match severity finding, comment finding with
               | None, None => "**[INFO]** "
               | None, Some text => "**[INFO]** " +:+ text
               | Some sev, None => "**[" +:+ PyStr.upper sev +:+ "]** "
               | Some sev, Some text => "**[" +:+ PyStr.upper sev +:+ "]** " +:+ text
               end.
Proof.
  intros Hfile Hline Hpos.
  pose proof (comment_of_present index finding fp ln pos Hfile Hline Hpos) as Hc.
  eexists _, _, _. rewrite !translate_refines, omap_app. simpl. rewrite Hc.
  repeat split.
  destruct (severity finding), (comment finding); simpl; try done.
  all: by rewrite append_empty_r.
Qed.

(** The theorem on a finding with neither severity nor comment, after the
    finding of Scenario 2. *)
Lemma optional_fields_default_witness :
  file_path bare_finding = Some "src/config.py"
  ∧ line_number bare_finding = Some 8
  ∧ lookup_position scenario1_index "src/config.py" 8 = Some 5
  ∧ ∃ out_pre out_post c,
      map_ai_response_to_github_format [scenario2_finding] scenario1_index = Ok out_pre
      ∧ map_ai_response_to_github_format [] scenario1_index = Ok out_post
      ∧ map_ai_response_to_github_format ([scenario2_finding] ++ bare_finding :: [])
          scenario1_index
        = Ok (out_pre ++ c :: out_post)
      ∧ path c = "src/config.py"
      ∧ position c = 5
      ∧ body c = "**[INFO]** ".
Proof.
  split; [reflexivity|]. split; [reflexivity|]. split; [by vm_compute|].
  apply (optional_fields_default scenario1_index [scenario2_finding] [] bare_finding
           "src/config.py" 8 5); [reflexivity|reflexivity|by vm_compute].
Defined.


(** * Further properties of the indexer *)

(** A closed equation settled by evaluating both sides. *)
Ltac evaluate := vm_compute; reflexivity.

Section IndexerFiles.

Implicit Types (st : pstate) (line : string) (ev : event).

(** A counted line is neither a file header nor a hunk header. *)
Lemma hunk_line_not_header line :
  hunk_line line = true →
  is_file_header line = false ∧ PyStr.startswith "@@" line = false.
Proof.
  unfold hunk_line, is_file_header, PyStr.startswith.
  destruct line as [|c rest]; [done|]. cbn [first_in String.prefix].
  intros Hc%bool_decide_eq_true_1. revert Hc.
  rewrite !elem_of_cons, elem_of_nil. intros [->|[->|[->|[]]]]; by split.
Qed.

(** The files of the index after one iteration: those of before, and the
    file of the line if it is a file header. *)
Lemma step_files st line st' ev F :
  step st line = Ok (st', ev) →
  is_Some (positions_map st' !! F)
  ↔ is_Some (positions_map st !! F) ∨ header_file line = Some F.
Proof.
  intros Hstep. pose proof (step_inv _ _ _ _ Hstep) as Hinv. revert Hstep.
  unfold step, header_file, is_file_header.
  destruct (PyStr.startswith "diff --git" line) eqn:Hfile.
  { intros [= <- <-]. simpl.
    destruct (PyStr.split " b/" line) as [|? [|f [|? ?]]]; simpl;
      try (split; [by left|by intros [?|?]]).
    rewrite lookup_insert_is_Some. split.
    - intros [->|[_ ?]]; [by right|by left].
    - intros [?|[= ->]]; [|by left].
      destruct (decide (f = F)); [by left|by right]. }
  intros _. destruct ev as [| | | |f l p].
  - by destruct Hinv as [? _].
  - destruct Hinv as (_ & -> & _). split; [by left|by intros [?|?]].
  - subst. split; [by left|by intros [?|?]].
  - destruct Hinv as (_ & _ & ->). simpl. split; [by left|by intros [?|?]].
  - destruct Hinv as (_ & _ & _ & _ & inner & Hin & ->). simpl.
    rewrite lookup_insert_is_Some. split.
    + intros [<-|[_ ?]]; left; [by eexists|done].
    + intros [?|?]; [|done]. destruct (decide (f = F)); [by left|by right].
Qed.

Lemma run_files lines : ∀ st st' evs F,
  run st lines = Ok (st', evs) →
  is_Some (positions_map st' !! F)
  ↔ is_Some (positions_map st !! F) ∨ ∃ line, line ∈ lines ∧ header_file line = Some F.
Proof.
  induction lines as [|line rest IH]; intros st st' evs F Hrun.
  - injection Hrun as <- <-. split; [by left|]. intros [?|(? & []%elem_of_nil & _)]. done.
  - apply run_cons_inv in Hrun as (st1 & ev & evs' & Hstep & Hrest & ->).
    rewrite (IH _ _ _ _ Hrest), (step_files _ _ _ _ _ Hstep). split.
    + intros [[?|?]|(ln & ? & ?)]; [by left| |].
      * right. exists line. split; [by left|done].
      * right. exists ln. split; [by right|done].
    + intros [?|(ln & [->|?]%elem_of_cons & ?)]; [by left; left|by left; right|].
      right. by exists ln.
Qed.

End IndexerFiles.

(** X1 (lines 50-57). Every entry of the index was written by a line of the
    diff that begins with [+] or a space, under the line number and the
    position the loop had reached there; a line that begins with [-] never
    writes an entry. *)
Theorem entries_written_by_added_or_context_lines (diff_text : string)
    (index : PositionIndex) (evs : list event) (F : string) (k p : Z) :
  parse_diff_to_positions diff_text = Ok index →
  parse_events diff_text = Ok evs →
  lookup_position index F k = Some p →
  ∃ i line, diff_lines diff_text !! i = Some line
            ∧ evs !! i = Some (Recorded F k p)
            ∧ recorded_line line = true
            ∧ PyStr.startswith "-" line = false.
Proof.
  intros Hparse Hevs. unfold lookup_position.
  destruct (index !! F) as [inner|] eqn:HF; simpl; [|done]. intros Hk.
  destruct (entries_from_recorded_lines _ _ _ _ _ _ _ Hparse Hevs HF Hk)
    as (i & line & Hline & Hev & Hrec).
  exists i, line. repeat split; try done.
  unfold first_in in Hrec. destruct line as [|c rest]; [done|].
  apply bool_decide_eq_true_1 in Hrec.
  unfold PyStr.startswith. cbn [String.prefix].
  destruct (ascii_dec "-" c) as [<-|]; [|done].
  revert Hrec. rewrite !elem_of_cons, elem_of_nil. by intros [?|[?|[]]].
Qed.

(** The theorem on the entry of line 8 in the diff of Scenario 1. *)
Lemma entries_written_by_added_or_context_lines_witness :
  parse_diff_to_positions scenario1_diff = Ok scenario1_index
  ∧ parse_events scenario1_diff = Ok scenario1_events
  ∧ lookup_position scenario1_index "src/config.py" 8 = Some 5
  ∧ ∃ i line, diff_lines scenario1_diff !! i = Some line
              ∧ scenario1_events !! i = Some (Recorded "src/config.py" 8 5)
              ∧ recorded_line line = true
              ∧ PyStr.startswith "-" line = false.
Proof.
  split; [evaluate|]. split; [evaluate|]. split; [evaluate|].
  apply (entries_written_by_added_or_context_lines scenario1_diff scenario1_index
           scenario1_events "src/config.py" 8 5); evaluate.
Defined.

(** X2 (lines 24-29). The files of the index are exactly the files named by
    the file headers of the diff: a file is a key of the index if and only
    if some line begins with [diff --git], holds [ b/] exactly once, and
    ends in [ b/] followed by the file. A file header registers its file
    even when no hunk follows. *)
Theorem index_files_are_header_files (diff_text : string) (index : PositionIndex)
    (F : string) :
  parse_diff_to_positions diff_text = Ok index →
  is_Some (index !! F)
  ↔ ∃ line, line ∈ diff_lines diff_text ∧ header_file line = Some F.
Proof.
  unfold parse_diff_to_positions.
  destruct (run init (diff_lines diff_text)) as [[st evs]|] eqn:Hrun; simpl; [|done].
  intros [= <-]. rewrite (run_files _ _ _ _ _ Hrun). simpl. rewrite lookup_empty.
  split; [|by right]. by intros [[? ?]|?].
Qed.

(** The theorem on the diff of Scenario 1. *)
Lemma index_files_are_header_files_witness :
  parse_diff_to_positions scenario1_diff = Ok scenario1_index
  ∧ (is_Some (scenario1_index !! "src/config.py")
     ↔ ∃ line, line ∈ diff_lines scenario1_diff
               ∧ header_file line = Some "src/config.py").
Proof.
  split; [evaluate|].
  apply (index_files_are_header_files scenario1_diff scenario1_index "src/config.py").
  evaluate.
Defined.

Section IndexerBounds.

Implicit Types (st : pstate) (line : string) (ev : event).

(** After [b] iterations the counter is below [b] once a file is current,
    and so is every position of the index. *)
Lemma step_bounded st line st' ev b :
  step st line = Ok (st', ev) →
  0 ≤ b →
  0 ≤ diff_position st →
  (is_Some (current_file st) → diff_position st < b) →
  (∀ F inner k p, positions_map st !! F = Some inner → inner !! k = Some p → 1 ≤ p < b) →
  0 ≤ diff_position st'
  ∧ (is_Some (current_file st') → diff_position st' < b + 1)
  ∧ (∀ F inner k p, positions_map st' !! F = Some inner → inner !! k = Some p →
       1 ≤ p < b + 1).
Proof.
  intros Hstep Hb Hpos Hcur Hmap. pose proof (step_inv _ _ _ _ Hstep) as Hinv.
  assert (Hentries : ∀ F inner k p,
            positions_map st' !! F = Some inner → inner !! k = Some p → 1 ≤ p < b + 1).
  { intros F inner k p HF Hk.
    destruct (step_entries _ _ _ _ _ _ _ _ Hstep HF Hk) as [(inner0 & H0 & Hk0)|[-> _]].
    - specialize (Hmap _ _ _ _ H0 Hk0). lia.
    - destruct Hinv as (_ & Hf & _ & -> & _).
      assert (diff_position st < b) by (apply Hcur; rewrite Hf; by eexists). lia. }
  split; [|split; [|done]].
  - destruct ev as [| | | |f l p].
    + destruct Hinv as (_ & -> & _). lia.
    + destruct Hinv as (_ & _ & _ & ->). lia.
    + by subst.
    + destruct Hinv as (_ & _ & ->). simpl. lia.
    + destruct Hinv as (_ & _ & _ & -> & inner & _ & ->). simpl. lia.
  - destruct ev as [| | | |f l p].
    + destruct Hinv as (_ & -> & _). lia.
    + destruct Hinv as (_ & _ & _ & ->). lia.
    + subst. intros Hsome. specialize (Hcur Hsome). lia.
    + destruct Hinv as (_ & _ & ->). simpl. intros Hsome. specialize (Hcur Hsome). lia.
    + destruct Hinv as (_ & Hf & _ & -> & inner & _ & ->). simpl. intros _.
      assert (diff_position st < b) by (apply Hcur; rewrite Hf; by eexists). lia.
Qed.

Lemma run_bounded lines : ∀ st st' evs b,
  run st lines = Ok (st', evs) →
  0 ≤ b →
  0 ≤ diff_position st →
  (is_Some (current_file st) → diff_position st < b) →
  (∀ F inner k p, positions_map st !! F = Some inner → inner !! k = Some p → 1 ≤ p < b) →
  ∀ F inner k p, positions_map st' !! F = Some inner → inner !! k = Some p →
    1 ≤ p < b + Z.of_nat (length lines).
Proof.
  induction lines as [|line rest IH]; intros st st' evs b Hrun Hb Hpos Hcur Hmap.
  - injection Hrun as <- <-. intros F inner k p HF Hk.
    specialize (Hmap _ _ _ _ HF Hk). simpl. lia.
  - apply run_cons_inv in Hrun as (st1 & ev & evs' & Hstep & Hrest & ->).
    destruct (step_bounded _ _ _ _ _ Hstep Hb Hpos Hcur Hmap) as (Hpos1 & Hcur1 & Hmap1).
    intros F inner k p HF Hk.
    assert (Hb1 : 0 ≤ b + 1) by lia.
    pose proof (IH _ _ _ _ Hrest Hb1 Hpos1 Hcur1 Hmap1 _ _ _ _ HF Hk) as Hle.
    rewrite length_cons. lia.
Qed.

(** ** Lines before the first file header *)

Lemma run_app lines1 : ∀ st lines2,
  run st (lines1 ++ lines2)
  = '(st1, evs1) ← run st lines1;
    '(st2, evs2) ← run st1 lines2;
    Ok (st2, evs1 ++ evs2).
Proof.
  induction lines1 as [|line rest IH]; intros st lines2; simpl.
  - by destruct (run st lines2) as [[? ?]|].
  - destruct (step st line) as [[st1 ev]|]; simpl; [|done].
    rewrite IH. destruct (run st1 rest) as [[st2 evs]|]; simpl; [|done].
    by destruct (run st2 lines2) as [[? ?]|].
Qed.

(** While no file is current, the loop passes over parsable lines that are
    no file header without a trace in the index. *)
Lemma run_preamble pre : ∀ st,
  Forall (λ line, is_file_header line = false ∧ header_parsable line = true) pre →
  loop_invariant st → current_file st = None →
  ∃ st' evs, run st pre = Ok (st', evs)
             ∧ positions_map st' = positions_map st
             ∧ current_file st' = None
             ∧ loop_invariant st'.
Proof.
  induction pre as [|line rest IH]; intros st Hpre Hinv Hcur.
  - by eexists _, _.
  - inversion_clear Hpre as [|? ? [Hfile Hparse] Hrest].
    destruct (step_returns st line Hinv) as [[_ (st1 & ev & Hstep)]|[Hno _]];
      [|congruence].
    pose proof (step_invariant _ _ _ _ Hinv Hstep) as Hinv1.
    pose proof (step_inv _ _ _ _ Hstep) as Hev.
    assert (positions_map st1 = positions_map st ∧ current_file st1 = None) as [Hm Hc].
    { destruct ev as [| | | |f l p].
      - destruct Hev as [Hyes _]. unfold is_file_header in Hfile. congruence.
      - destruct Hev as (_ & -> & -> & _). done.
      - by subst.
      - destruct Hev as (_ & _ & ->). done.
      - destruct Hev as (_ & Hf & _). congruence. }
    destruct (IH st1 Hrest Hinv1 Hc) as (st2 & evs & Hrun & Hm2 & Hc2 & Hinv2).
    exists st2, (ev :: evs). simpl. rewrite Hstep. simpl. rewrite Hrun. simpl.
    repeat split; [congruence|done|apply Hinv2|apply Hinv2].
Qed.

(** While no file is current, the counter and the line number do not
    matter: two states that agree on the index and on the current file, and
    on the two numbers if a file is current, are taken to such states, or
    both raise. *)
Lemma step_agree st1 st2 line :
  positions_map st1 = positions_map st2 →
  current_file st1 = current_file st2 →
  (current_file st1 = None
   ∨ (diff_position st1 = diff_position st2 ∧ start_line st1 = start_line st2)) →
  match step st1 line, step st2 line with
  | Ok (a, _), Ok (b, _) =>
      positions_map a = positions_map b
      ∧ current_file a = current_file b
      ∧ (current_file a = None
         ∨ (diff_position a = diff_position b ∧ start_line a = start_line b))
  | Raise e1, Raise e2 => e1 = e2
  | _, _ => False
  end.
Proof.
  destruct st1 as [m1 c1 d1 s1], st2 as [m2 c2 d2 s2]. simpl.
  intros <- <- Hnum. unfold step. simpl.
  destruct (PyStr.startswith "diff --git" line).
  { destruct (PyStr.split " b/" line) as [|? [|f [|? ?]]]; simpl; by eauto. }
  destruct (PyStr.startswith "@@" line).
  { destruct (PyStr.split " " line) as [|? [|? [|new_range ?]]]; simpl;
      try (repeat split; try done; destruct Hnum as [?|[_ ?]]; by eauto).
    destruct (PyStr.split "," new_range) as [|field ?]; simpl; [done|].
    destruct (PyStr.int (PyStr.tail field)); simpl; by eauto. }
  destruct c1 as [f|]; [|by eauto].
  destruct Hnum as [?|[<- <-]]; [done|].
  destruct (first_in ["+"; "-"; " "]%char line); [|by eauto].
  destruct (first_in ["+"; " "]%char line); [|by eauto].
  destruct (getitem m1 f); simpl; by eauto.
Qed.

Lemma run_agree lines : ∀ st1 st2,
  positions_map st1 = positions_map st2 →
  current_file st1 = current_file st2 →
  (current_file st1 = None
   ∨ (diff_position st1 = diff_position st2 ∧ start_line st1 = start_line st2)) →
  (λ r, positions_map r.1) <$> run st1 lines = (λ r, positions_map r.1) <$> run st2 lines.
Proof.
  induction lines as [|line rest IH]; intros st1 st2 Hm Hc Hnum; simpl.
  - by rewrite Hm.
  - pose proof (step_agree st1 st2 line Hm Hc Hnum) as Hstep.
    destruct (step st1 line) as [[a e1]|e1], (step st2 line) as [[b e2]|e2];
      simpl; try done; [|by subst].
    destruct Hstep as (Hm' & Hc' & Hnum'). specialize (IH a b Hm' Hc' Hnum').
    destruct (run a rest) as [[? ?]|], (run b rest) as [[? ?]|]; simpl in *; congruence.
Qed.

End IndexerBounds.

(** X3 (lines 19, 30, 42, 51, 56). Every diff position of the index is at
    least 1 and smaller than the number of lines of the diff text: the
    counter starts again at a header and goes up by one per counted line,
    and nothing is recorded before a file header has been read. *)
Theorem positions_within_diff (diff_text : string) (index : PositionIndex)
    (F : string) (k p : Z) :
  parse_diff_to_positions diff_text = Ok index →
  lookup_position index F k = Some p →
  1 ≤ p < Z.of_nat (length (diff_lines diff_text)).
Proof.
  unfold parse_diff_to_positions, lookup_position.
  destruct (run init (diff_lines diff_text)) as [[st evs]|] eqn:Hrun; simpl; [|done].
  intros [= <-]. destruct (positions_map st !! F) as [inner|] eqn:HF; simpl; [|done].
  intros Hk.
  refine (run_bounded _ _ _ _ 0 Hrun _ _ _ _ _ _ _ _ HF Hk); simpl; [lia|lia| |].
  - by intros [? ?].
  - intros ? ? ? ? H0. by rewrite lookup_empty in H0.
Qed.

(** The theorem on the entry of line 12 in the diff of Scenario 1, which has
    eleven lines. *)
Lemma positions_within_diff_witness :
  parse_diff_to_positions scenario1_diff = Ok scenario1_index
  ∧ lookup_position scenario1_index "src/config.py" 12 = Some 9
  ∧ 1 ≤ 9 < Z.of_nat (length (diff_lines scenario1_diff)).
Proof.
  split; [evaluate|]. split; [evaluate|].
  apply (positions_within_diff scenario1_diff scenario1_index "src/config.py" 12 9);
    evaluate.
Defined.

(** X4 (lines 24-47). Text before a diff does not change its index: if the
    lines of one text are those of another after some lines that are no
    file header and no hunk header that [int] refuses (the headers of a
    mail, a commit message), the two texts have the same result. While no
    file is current, nothing is recorded, and a hunk header met there is
    forgotten at the next file header. *)
Theorem preamble_is_ignored (diff_text rest : string) (pre : list string) :
  diff_lines diff_text = pre ++ diff_lines rest →
  Forall (λ line, is_file_header line = false ∧ header_parsable line = true) pre →
  parse_diff_to_positions diff_text = parse_diff_to_positions rest.
Proof.
  intros Hlines Hpre. unfold parse_diff_to_positions. rewrite Hlines, run_app.
  destruct (run_preamble pre init Hpre init_invariant eq_refl)
    as (st & evs & -> & Hm & Hc & _). simpl.
  pose proof (run_agree (diff_lines rest) st init Hm Hc (or_introl Hc)) as Hsame.
  destruct (run st (diff_lines rest)) as [[a ea]|],
           (run init (diff_lines rest)) as [[b eb]|]; simpl in *; congruence.
Qed.

(** The theorem on the diff of Scenario 1 after two lines of a mail. *)
Lemma preamble_is_ignored_witness :
  diff_lines mailed_diff
  = ["From: a developer"; "Subject: a change"] ++ diff_lines scenario1_diff
  ∧ Forall (λ line, is_file_header line = false ∧ header_parsable line = true)
      ["From: a developer"; "Subject: a change"]
  ∧ parse_diff_to_positions mailed_diff = parse_diff_to_positions scenario1_diff.
Proof.
  split; [evaluate|].
  split; [repeat constructor|].
  apply (preamble_is_ignored mailed_diff scenario1_diff
           ["From: a developer"; "Subject: a change"]); [evaluate|].
  repeat constructor.
Defined.

Section IndexerHunk.

Implicit Types (st : pstate) (line : string) (ev : event).

Lemma lookup_position_insert (index : PositionIndex) f inner k :
  lookup_position (<[f := inner]> index) f k = inner !! k.
Proof. unfold lookup_position. by rewrite lookup_insert_eq. Qed.

Lemma lookup_position_Some (index : PositionIndex) f inner k :
  index !! f = Some inner → lookup_position index f k = inner !! k.
Proof. unfold lookup_position. by intros ->. Qed.

Lemma new_lines_nonneg body : 0 ≤ new_lines body.
Proof. induction body as [|line rest IH]; simpl; [done|]. destruct (recorded_line line); lia. Qed.

(** Lines 24-32 on a file header that names a file. *)
Lemma step_file_header st line f :
  header_file line = Some f →
  step st line
  = Ok ({| positions_map := <[f := ∅]> (positions_map st);
           current_file := Some f;
           diff_position := 0;
           start_line := 0 |}, FileHeader).
Proof.
  unfold header_file, is_file_header, step.
  destruct (PyStr.startswith "diff --git" line); [|done].
  destruct (PyStr.split " b/" line) as [|? [|f' [|? ?]]]; try done.
  by intros [= ->].
Qed.

(** Lines 35-43 on a hunk header whose start [int] accepts. *)
Lemma step_hunk_header st line text n :
  new_start_field line = Some text → PyStr.int text = Some n →
  step st line
  = Ok ({| positions_map := positions_map st;
           current_file := current_file st;
           diff_position := 0;
           start_line := n |}, HunkHeader).
Proof.
  unfold new_start_field, step.
  destruct (PyStr.startswith "@@" line) eqn:Hhunk; [|done].
  rewrite (hunk_header_not_file_header _ Hhunk).
  destruct (PyStr.split " " line) as [|? [|? [|new_range ?]]]; try done.
  destruct (split_cons "," new_range) as (field & ? & ->). simpl.
  intros [= <-] ->. done.
Qed.

(** Lines 50-57 on a counted line. *)
Lemma step_hunk_line st line f inner :
  hunk_line line = true →
  current_file st = Some f → positions_map st !! f = Some inner →
  step st line
  = if recorded_line line
    then Ok ({| positions_map :=
                  <[f := <[start_line st := diff_position st + 1]> inner]> (positions_map st);
                current_file := Some f;
                diff_position := diff_position st + 1;
                start_line := start_line st + 1 |},
             Recorded f (start_line st) (diff_position st + 1))
    else Ok ({| positions_map := positions_map st;
                current_file := Some f;
                diff_position := diff_position st + 1;
                start_line := start_line st |}, Deleted).
Proof.
  intros Hline Hcur Hin.
  destruct (hunk_line_not_header _ Hline) as [Hfile Hhunk].
  unfold is_file_header in Hfile. unfold hunk_line in Hline. unfold step, recorded_line.
  rewrite Hfile, Hhunk, Hcur, Hline.
  destruct (first_in ["+"; " "]%char line); [|done].
  by rewrite (getitem_Some _ _ _ Hin).
Qed.

(** The lines between a file header and its first hunk header keep the
    file current and registered. *)
Lemma run_between pre : ∀ st f,
  Forall (λ line, is_file_header line = false ∧ PyStr.startswith "@@" line = false) pre →
  current_file st = Some f → is_Some (positions_map st !! f) →
  ∃ st' evs, run st pre = Ok (st', evs)
             ∧ current_file st' = Some f ∧ is_Some (positions_map st' !! f).
Proof.
  induction pre as [|line rest IH]; intros st f Hpre Hcur Hin.
  - by eexists _, _.
  - inversion_clear Hpre as [|? ? [Hfile Hhunk] Hrest].
    assert (∃ st1 ev, step st line = Ok (st1, ev)
                      ∧ current_file st1 = Some f ∧ is_Some (positions_map st1 !! f))
      as (st1 & ev & Hstep & Hcur1 & Hin1).
    { unfold is_file_header in Hfile. unfold step. rewrite Hfile, Hhunk, Hcur.
      destruct Hin as [inner Hin].
      destruct (first_in ["+"; "-"; " "]%char line); [|by eexists _, _].
      destruct (first_in ["+"; " "]%char line); [|by eexists _, _].
      rewrite (getitem_Some _ _ _ Hin). simpl. eexists _, _. split; [done|]. simpl.
      split; [done|]. rewrite lookup_insert_eq. by eexists. }
    destruct (IH st1 f Hrest Hcur1 Hin1) as (st2 & evs & Hrun & ? & ?).
    exists st2, (ev :: evs). simpl. rewrite Hstep. simpl. by rewrite Hrun.
Qed.

(** The body of a hunk: every line is counted, and the line at index [i],
    if it is recorded, gets the position counter plus [i + 1] under the line
    number plus the number of recorded lines before it. Entries of smaller
    line numbers are left alone. *)
Lemma run_hunk_body body : ∀ st f,
  current_file st = Some f → is_Some (positions_map st !! f) →
  Forall (λ line, hunk_line line = true) body →
  ∃ st' evs,
    run st body = Ok (st', evs)
    ∧ (∀ k, k < start_line st →
         lookup_position (positions_map st') f k = lookup_position (positions_map st) f k)
    ∧ (∀ (i : nat) line, body !! i = Some line → recorded_line line = true →
         lookup_position (positions_map st') f (start_line st + new_lines (take i body))
         = Some (diff_position st + Z.of_nat i + 1)).
Proof.
  induction body as [|line rest IH]; intros st f Hcur [inner Hin] Hbody.
  - exists st, []. split; [done|]. split; [done|].
    intros i line Hi. by rewrite lookup_nil in Hi.
  - inversion_clear Hbody as [|? ? Hline Hrest].
    pose proof (step_hunk_line st line f inner Hline Hcur Hin) as Hstep.
    destruct (recorded_line line) eqn:Hrec.
    + match type of Hstep with _ = Ok (?s, _) => set (st1 := s) in * end.
      destruct (IH st1 f eq_refl) as (st' & evs & Hrun & Hkeep & Hidx); [|done|].
      { simpl. rewrite lookup_insert_eq. by eexists. }
      exists st', (Recorded f (start_line st) (diff_position st + 1) :: evs).
      split; [simpl; rewrite Hstep; simpl; by rewrite Hrun|].
      assert (Hkeep1 : ∀ k, k < start_line st + 1 →
                lookup_position (positions_map st') f k
                = <[start_line st := diff_position st + 1]> inner !! k).
      { intros k Hk. rewrite (Hkeep k) by (simpl; lia). simpl.
        apply lookup_position_insert. }
      split.
      * intros k Hk. rewrite Hkeep1 by lia.
        rewrite lookup_insert_ne by lia. by rewrite (lookup_position_Some _ _ _ _ Hin).
      * intros [|i] ln Hi Hr; simpl in *.
        -- rewrite Z.add_0_r, Hkeep1 by lia. rewrite lookup_insert_eq. f_equal. lia.
        -- rewrite Hrec. specialize (Hidx i ln Hi Hr). simpl in Hidx.
           etrans; [|etrans; [exact Hidx|]]; f_equal; lia.
    + match type of Hstep with _ = Ok (?s, _) => set (st1 := s) in * end.
      destruct (IH st1 f eq_refl) as (st' & evs & Hrun & Hkeep & Hidx); [|done|].
      { simpl. by eexists. }
      exists st', (Deleted :: evs).
      split; [simpl; rewrite Hstep; simpl; by rewrite Hrun|].
      split; [apply Hkeep|].
      intros [|i] ln Hi Hr; simpl in *; [congruence|].
      rewrite Hrec. specialize (Hidx i ln Hi Hr). simpl in Hidx.
      etrans; [|etrans; [exact Hidx|]]; f_equal; lia.
Qed.

End IndexerHunk.

(** The index of a diff of one file and one hunk, at a recorded line of the
    body. *)
Lemma single_hunk_lookup (diff_text hdr : string) (pre : list string)
    (hunk : string) (body : list string) (f text : string) (n : Z)
    (i : nat) (line : string) :
  diff_lines diff_text = hdr :: pre ++ hunk :: body →
  header_file hdr = Some f →
  Forall (λ l, is_file_header l = false ∧ PyStr.startswith "@@" l = false) pre →
  new_start_field hunk = Some text →
  PyStr.int text = Some n →
  Forall (λ l, hunk_line l = true) body →
  body !! i = Some line →
  recorded_line line = true →
  ∃ index,
    parse_diff_to_positions diff_text = Ok index
    ∧ lookup_position index f (n + new_lines (take i body)) = Some (Z.of_nat i + 1).
Proof.
  intros Hlines Hhdr Hpre Hfield Hint Hbody Hi Hrec.
  unfold parse_diff_to_positions. rewrite Hlines.
  cbn [run]. rewrite (step_file_header init hdr f Hhdr). simpl. rewrite run_app.
  match goal with |- context [run ?s pre] => set (st1 := s) end.
  destruct (run_between pre st1 f Hpre eq_refl) as (st2 & evs2 & -> & Hcur2 & Hin2).
  { simpl. rewrite lookup_insert_eq. by eexists. }
  cbn [run mbind result_bind]. rewrite (step_hunk_header st2 hunk text n Hfield Hint).
  cbn [mbind result_bind].
  match goal with |- context [run ?s body] => set (st3 := s) end.
  destruct (run_hunk_body body st3 f Hcur2 Hin2 Hbody) as (st' & evs & -> & _ & Hidx).
  simpl. eexists. split; [done|].
  specialize (Hidx i line Hi Hrec). simpl in Hidx. rewrite Hidx; f_equal; lia.
Qed.

(** X5 (lines 22-57). The index of a diff of one file and one hunk. Let the
    lines of the diff be a file header that names [f], lines that are no
    header (the [index], [---] and [+++] lines), a hunk header whose
    new-file start [int] reads as [n], and a body of lines that all begin
    with [+], [-] or a space. Then the call returns, and the body line at
    index [i] (from 0), if it begins with [+] or a space, is found in the
    index of [f] under the line number [n] plus the number of such lines
    before it, with the position [i + 1]: every body line takes a position,
    the lines that begin with [-] take no line number. *)
Theorem single_hunk_positions (diff_text hdr : string) (pre : list string)
    (hunk : string) (body : list string) (f text : string) (n : Z)
    (i : nat) (line : string) :
  diff_lines diff_text = hdr :: pre ++ hunk :: body →
  header_file hdr = Some f →
  Forall (λ l, is_file_header l = false ∧ PyStr.startswith "@@" l = false) pre →
  new_start_field hunk = Some text →
  PyStr.int text = Some n →
  Forall (λ l, hunk_line l = true) body →
  body !! i = Some line →
  recorded_line line = true →
  ∃ index,
    parse_diff_to_positions diff_text = Ok index
    ∧ lookup_position index f (n + new_lines (take i body)) = Some (Z.of_nat i + 1).
Proof. apply single_hunk_lookup. Qed.

(** The theorem on [sample_diff]: the line [+DEBUG = False], at index 4 of
    the body of the hunk that starts at line 5, after three recorded
    lines. *)
Lemma single_hunk_positions_witness :
  diff_lines sample_diff
  = "diff --git a/src/config.py b/src/config.py"
    :: ["index 1234567..abcdefg 100644"; "--- a/src/config.py"; "+++ b/src/config.py"]
    ++ "@@ -5,10 +5,11 @@ import os"
    :: [" # Configuration file"; " MAX_RETRIES = 3"; " TIMEOUT = 30"; "-DEBUG = True";
        "+DEBUG = False"; " "; " def load_config():"]
  ∧ ∃ index,
      parse_diff_to_positions sample_diff = Ok index
      ∧ lookup_position index "src/config.py" 8 = Some 5.
Proof.
  split; [evaluate|].
  apply (single_hunk_positions sample_diff
           "diff --git a/src/config.py b/src/config.py"
           ["index 1234567..abcdefg 100644"; "--- a/src/config.py"; "+++ b/src/config.py"]
           "@@ -5,10 +5,11 @@ import os"
           [" # Configuration file"; " MAX_RETRIES = 3"; " TIMEOUT = 30"; "-DEBUG = True";
            "+DEBUG = False"; " "; " def load_config():"]
           "src/config.py" "5" 5 4 "+DEBUG = False").
  - evaluate.
  - evaluate.
  - repeat constructor.
  - evaluate.
  - evaluate.
  - repeat constructor.
  - evaluate.
  - evaluate.
Defined.

Section IndexerSections.

Implicit Types (st : pstate) (line : string) (ev : event).

(** An iteration takes agreeing states to agreeing states, with the same
    event, or raises from both. *)
Lemma step_agree_on f st1 st2 line :
  agree_on f st1 st2 →
  match step st1 line, step st2 line with
  | Ok (a, e1), Ok (b, e2) => agree_on f a b ∧ e1 = e2
  | Raise e1, Raise e2 => e1 = e2
  | _, _ => False
  end.
Proof.
  destruct st1 as [m1 c1 d1 s1], st2 as [m2 c2 d2 s2]. unfold agree_on. simpl.
  intros (<- & <- & <- & Hf & Hcur). unfold step. simpl.
  destruct (PyStr.startswith "diff --git" line).
  { destruct (PyStr.split " b/" line) as [|? [|g [|? ?]]]; simpl; try by eauto 10.
    repeat split; try done.
    - destruct (decide (g = f)) as [->|Hne].
      + by rewrite !lookup_insert_eq.
      + by rewrite !lookup_insert_ne.
    - intros ? [= <-]. by rewrite !lookup_insert_eq. }
  destruct (PyStr.startswith "@@" line).
  { destruct (PyStr.split " " line) as [|? [|? [|new_range ?]]]; simpl; try by eauto 10.
    destruct (PyStr.split "," new_range) as [|field ?]; simpl; [done|].
    destruct (PyStr.int (PyStr.tail field)); simpl; by eauto 10. }
  destruct c1 as [g|]; [|by eauto 10].
  destruct (first_in ["+"; "-"; " "]%char line); [|by eauto 10].
  destruct (first_in ["+"; " "]%char line); [|by eauto 10].
  unfold getitem. rewrite (Hcur g eq_refl).
  destruct (m2 !! g) as [inner|]; simpl; [|done].
  repeat split; try done.
  - destruct (decide (g = f)) as [->|Hne].
    + by rewrite !lookup_insert_eq.
    + by rewrite !lookup_insert_ne.
  - intros ? [= <-]. by rewrite !lookup_insert_eq.
Qed.

Lemma run_agree_on f lines : ∀ st1 st2,
  agree_on f st1 st2 →
  match run st1 lines, run st2 lines with
  | Ok (a, evs1), Ok (b, evs2) => agree_on f a b ∧ evs1 = evs2
  | Raise e1, Raise e2 => e1 = e2
  | _, _ => False
  end.
Proof.
  induction lines as [|line rest IH]; intros st1 st2 Hagree; simpl; [done|].
  pose proof (step_agree_on f st1 st2 line Hagree) as Hstep.
  destruct (step st1 line) as [[a e1]|e1], (step st2 line) as [[b e2]|e2];
    simpl; try done.
  destruct Hstep as [Hab <-]. specialize (IH a b Hab).
  destruct (run a rest) as [[a' evs1]|], (run b rest) as [[b' evs2]|]; simpl; try done.
  destruct IH as [? <-]. done.
Qed.

End IndexerSections.

(** X6 (lines 24-31, 56). The mapping of a file is that of its own section:
    when a diff holds a file header that names [f], what the index has for
    [f] is what the index of the diff from that header on has for [f]. The
    lines before the header, the sections of other files among them, add
    nothing to it, and entries an earlier section of the same file had
    recorded are dropped when the header is read. *)
Theorem file_section_is_independent (diff_text section : string)
    (before : list string) (hdr : string) (rest : list string) (f : string)
    (index : PositionIndex) :
  diff_lines diff_text = before ++ hdr :: rest →
  diff_lines section = hdr :: rest →
  header_file hdr = Some f →
  parse_diff_to_positions diff_text = Ok index →
  ∃ section_index,
    parse_diff_to_positions section = Ok section_index
    ∧ index !! f = section_index !! f.
Proof.
  intros Hlines Hsection Hhdr. unfold parse_diff_to_positions.
  rewrite Hlines, Hsection, run_app.
  destruct (run init before) as [[sa ea]|]; simpl; [|done].
  rewrite !(step_file_header _ hdr f Hhdr). simpl.
  set (s1 := {| positions_map := <[f := ∅]> (positions_map sa);
                current_file := Some f; diff_position := 0; start_line := 0 |}).
  set (s2 := {| positions_map := <[f := ∅]> ∅;
                current_file := Some f; diff_position := 0; start_line := 0 |}).
  assert (Hagree : agree_on f s1 s2).
  { repeat split; simpl; try done.
    - by rewrite !lookup_insert_eq.
    - intros ? [= <-]. by rewrite !lookup_insert_eq. }
  pose proof (run_agree_on f rest s1 s2 Hagree) as Hrun.
  destruct (run s1 rest) as [[a evs1]|], (run s2 rest) as [[b evs2]|]; simpl; try done.
  intros [= <-]. exists (positions_map b). split; [done|].
  by destruct Hrun as [(_ & _ & _ & ? & _) _].
Qed.

(** The theorem on [two_hunks_diff] put after the diff of Scenario 1: the
    mapping of [f] is that of [two_hunks_diff] alone. *)
Lemma file_section_is_independent_witness :
  diff_lines two_files_diff = diff_lines scenario1_diff ++ diff_lines two_hunks_diff
  ∧ header_file "diff --git a/f b/f" = Some "f"
  ∧ parse_diff_to_positions two_files_diff = Ok two_files_index
  ∧ ∃ section_index,
      parse_diff_to_positions two_hunks_diff = Ok section_index
      ∧ two_files_index !! "f" = section_index !! "f".
Proof.
  split; [evaluate|]. split; [evaluate|]. split; [evaluate|].
  apply (file_section_is_independent two_files_diff two_hunks_diff
           (diff_lines scenario1_diff) "diff --git a/f b/f"
           ["@@ -1 +1 @@"; "+a"; "@@ -9 +9 @@"; "+b"] "f" two_files_index);
    evaluate.
Defined.

(** * Further properties of the translator *)

Section TranslatorWarnings.

Context (index : PositionIndex).

(** One iteration appends the comment of the finding or prints its
    warning. *)
Lemma translate_step_outputs acc out issue :
  translate_step index acc out issue
  = Ok (acc ++ option_list (comment_of index issue),
        out ++ option_list (warning_of index issue)).
Proof.
  unfold translate_step, comment_of, warning_of.
  destruct (file_path issue) as [fp|]; simpl; [|by rewrite app_nil_r].
  destruct (index !! fp) as [inner|] eqn:Efp.
  2:{ rewrite (contains_false _ _ Efp). destruct (line_number issue); simpl;
        by rewrite app_nil_r. }
  rewrite (contains_true _ _ _ Efp), !(getitem_Some _ _ _ Efp). simpl.
  destruct (line_number issue) as [ln|]; simpl; [|by rewrite app_nil_r].
  destruct (inner !! ln) as [pos|] eqn:Eln.
  2:{ rewrite (contains_false _ _ Eln). simpl. by rewrite app_nil_r. }
  rewrite (contains_true _ _ _ Eln), (getitem_Some _ _ _ Eln). simpl.
  by rewrite app_nil_r.
Qed.

Lemma translate_loop_outputs ai : ∀ acc out,
  translate_loop index acc out ai
  = Ok (acc ++ omap (comment_of index) ai, out ++ omap (warning_of index) ai).
Proof.
  induction ai as [|issue rest IH]; intros acc out; csimpl.
  - by rewrite !app_nil_r.
  - rewrite translate_step_outputs. csimpl. rewrite IH, <- !app_assoc.
    by destruct (comment_of index issue), (warning_of index issue).
Qed.

(** A finding has a comment or a warning, not both. *)
Lemma comment_or_warning finding :
  (length (option_list (comment_of index finding))
   + length (option_list (warning_of index finding)) = 1)%nat.
Proof.
  unfold comment_of, warning_of.
  destruct (file_path finding) as [fp|]; simpl; [|done].
  destruct (line_number finding) as [ln|], (index !! fp) as [inner|]; simpl; try done.
  by destruct (inner !! ln).
Qed.

Lemma comments_and_warnings_length ai :
  (length (omap (comment_of index) ai) + length (omap (warning_of index) ai)
   = length ai)%nat.
Proof.
  induction ai as [|finding rest IH]; csimpl; [done|].
  pose proof (comment_or_warning finding) as Hone.
  destruct (comment_of index finding), (warning_of index finding); csimpl in *; lia.
Qed.

End TranslatorWarnings.

(** X7 (lines 80-108). Every finding is either translated or reported: the
    call prints one warning for each finding it skips and none for the
    others, in the order of the findings, so the comments returned and the
    warnings printed are together as many as the findings. The warning is
    the one of line 89 when the file of the finding is no key of the index,
    and the one of line 94 when the file is a key but the line is not. *)
Theorem skipped_findings_are_reported (ai_response_json : list Finding)
    (index : PositionIndex) :
  ∃ github_comments printed,
    translate_loop index [] [] ai_response_json = Ok (github_comments, printed)
    ∧ map_ai_response_to_github_format ai_response_json index = Ok github_comments
    ∧ printed = omap (warning_of index) ai_response_json
    ∧ (length github_comments + length printed = length ai_response_json)%nat.
Proof.
  exists (omap (comment_of index) ai_response_json),
         (omap (warning_of index) ai_response_json).
  unfold map_ai_response_to_github_format. rewrite translate_loop_outputs. simpl.
  repeat split. apply comments_and_warnings_length.
Qed.

(** X8 (lines 86-108). The translation never makes up a place: every comment
    of the output comes from a finding of the input whose file is the path
    of the comment, and its position is the one the index holds for that
    file at the line of the finding. *)
Theorem comments_come_from_index (ai_response_json : list Finding)
    (index : PositionIndex) (github_comments : list CommentRecord) (c : CommentRecord) :
  map_ai_response_to_github_format ai_response_json index = Ok github_comments →
  c ∈ github_comments →
  ∃ finding ln,
    finding ∈ ai_response_json
    ∧ file_path finding = Some (path c)
    ∧ line_number finding = Some ln
    ∧ lookup_position index (path c) ln = Some (position c).
Proof.
  rewrite translate_refines. intros [= <-] Hc.
  apply list_elem_of_omap in Hc as (finding & Hin & Hcomment).
  unfold comment_of in Hcomment.
  destruct (file_path finding) as [fp|] eqn:Hfp; simpl in *; [|done].
  destruct (line_number finding) as [ln|] eqn:Hln; simpl in *; [|done].
  destruct (index !! fp) as [inner|] eqn:Hfile; simpl in *; [|done].
  destruct (inner !! ln) as [pos|] eqn:Hline; simpl in *; [|done].
  injection Hcomment as <-. simpl. exists finding, ln.
  repeat split; try done. by rewrite (lookup_position_Some _ _ _ _ Hfile).
Qed.

(** The theorem on the finding of Scenario 2 between two findings that are
    skipped. *)
Lemma comments_come_from_index_witness :
  map_ai_response_to_github_format [stray_finding; scenario2_finding; stray_finding]
    scenario1_index
  = Ok [ {| path := "src/config.py"; position := 5; body := "**[ERROR]** x" |} ]
  ∧ ∃ finding ln,
      finding ∈ [stray_finding; scenario2_finding; stray_finding]
      ∧ file_path finding = Some "src/config.py"
      ∧ line_number finding = Some ln
      ∧ lookup_position scenario1_index "src/config.py" ln = Some 5.
Proof.
  split; [evaluate|].
  apply (comments_come_from_index [stray_finding; scenario2_finding; stray_finding]
           scenario1_index
           [ {| path := "src/config.py"; position := 5; body := "**[ERROR]** x" |} ]
           {| path := "src/config.py"; position := 5; body := "**[ERROR]** x" |});
    [evaluate|by left].
Defined.

(** * Properties of the review workflow *)

Section Workflow.





End Workflow.







(** * The indexer and the translator together *)

(** X12 (app.py, lines 22-57 and 80-108). From the diff to the comment. For
    a diff of one file [f] and one hunk that starts at line [n], as in
    [single_hunk_positions], a finding on [f] at the line number of the body
    line of index [i] (that is, [n] plus the number of lines before it that
    begin with [+] or a space) is translated against the index of the diff
    to one comment, on [f], at position [i + 1]. *)
Theorem finding_on_hunk_line_is_placed (diff_text hdr : string) (pre : list string)
    (hunk : string) (body : list string) (f text : string) (n : Z)
    (i : nat) (line : string) (finding : Finding) :
  diff_lines diff_text = hdr :: pre ++ hunk :: body →
  header_file hdr = Some f →
  Forall (λ l, is_file_header l = false ∧ PyStr.startswith "@@" l = false) pre →
  new_start_field hunk = Some text →
  PyStr.int text = Some n →
  Forall (λ l, hunk_line l = true) body →
  body !! i = Some line →
  recorded_line line = true →
  file_path finding = Some f →
  line_number finding = Some (n + new_lines (take i body)) →
  ∃ index,
    parse_diff_to_positions diff_text = Ok index
    ∧ map_ai_response_to_github_format [finding] index
      = Ok [ {| path := f;
                position := Z.of_nat i + 1;
                body := "**[" +:+ PyStr.upper (default "info" (severity finding))
                        +:+ "]** " +:+ default EmptyString (comment finding) |} ].
Proof.
  intros Hlines Hhdr Hpre Hfield Hint Hbody Hi Hrec Hfile Hline.
  destruct (single_hunk_lookup diff_text hdr pre hunk body f text n i line
              Hlines Hhdr Hpre Hfield Hint Hbody Hi Hrec) as (index & Hparse & Hpos).
  exists index. split; [done|]. rewrite translate_refines. csimpl.
  by rewrite (comment_of_present index finding f _ _ Hfile Hline Hpos).
Qed.

(** The theorem on [sample_diff] and the finding of Scenario 2, on line 8:
    the line [+DEBUG = False], at index 4 of the body. *)
Lemma finding_on_hunk_line_is_placed_witness :
  diff_lines sample_diff
  = "diff --git a/src/config.py b/src/config.py"
    :: ["index 1234567..abcdefg 100644"; "--- a/src/config.py"; "+++ b/src/config.py"]
    ++ "@@ -5,10 +5,11 @@ import os"
    :: [" # Configuration file"; " MAX_RETRIES = 3"; " TIMEOUT = 30"; "-DEBUG = True";
        "+DEBUG = False"; " "; " def load_config():"]
  ∧ ∃ index,
      parse_diff_to_positions sample_diff = Ok index
      ∧ map_ai_response_to_github_format [scenario2_finding] index
        = Ok [ {| path := "src/config.py"; position := 5; body := "**[ERROR]** x" |} ].
Proof.
  split; [evaluate|].
  apply (finding_on_hunk_line_is_placed sample_diff
           "diff --git a/src/config.py b/src/config.py"
           ["index 1234567..abcdefg 100644"; "--- a/src/config.py"; "+++ b/src/config.py"]
           "@@ -5,10 +5,11 @@ import os"
           [" # Configuration file"; " MAX_RETRIES = 3"; " TIMEOUT = 30"; "-DEBUG = True";
            "+DEBUG = False"; " "; " def load_config():"]
           "src/config.py" "5" 5 4 "+DEBUG = False" scenario2_finding).
  - evaluate.
  - evaluate.
  - repeat constructor.
  - evaluate.
  - evaluate.
  - repeat constructor.
  - evaluate.
  - evaluate.
  - evaluate.
  - evaluate.
Defined.
